(** * HR-Bot chat gateway (module-2/main.py): embedding and verification

    The gateway prepends a fixed system prompt to the client's conversation,
    forwards it to the Ollama backend, redacts one salary figure from the
    reply and returns it; it also serves the entry HTML page.

    Representation. A Python [str] is represented by its UTF-8 encoding, a
    Rocq [string] (a sequence of bytes). The redacted figure and its
    placeholder are ASCII, and UTF-8 is self-synchronising, so replacing on
    the encoding is replacing on the code points. A lone surrogate, which a
    [str] may hold, is represented by the three bytes the same scheme gives
    it; such a text is not well-formed UTF-8, and it is the text that
    [str.encode("utf-8")] refuses. *)

From Stdlib Require Import Ascii ZArith.
From Stdlib Require QArith.
From stdpp Require Import base option list strings gmap.

Local Open Scope Z_scope.
Set Warnings "-register-all".

(** String concatenation unfolds on a constructor, as list append does. *)
Local Arguments String.append !_ _ / : simpl nomatch.

(** ** Python strings *)

Module Str.

(** [strip_prefix old s] is the rest of [s] after a leading [old]
    ([s.startswith(old)], then [s[len(old):]]). *)
Fixpoint strip_prefix (old s : string) : option string :=
  match old with
  | EmptyString => Some s
  | String a old' =>
      match s with
      | EmptyString => None
      | String b s' => if Ascii.eqb a b then strip_prefix old' s' else None
      end
  end.

(** [old in s]. *)
Fixpoint contains (old s : string) : bool :=
  match strip_prefix old s with
  | Some _ => true
  | None =>
      match s with
      | EmptyString => false
      | String _ s' => contains old s'
      end
  end.

(** [old] occurs in [s] as a substring. *)
Definition occurs (old s : string) : Prop :=
  ∃ a b, s = a +:+ old +:+ b.

(** [c in s] for a single character. *)
Fixpoint mem (c : ascii) (s : string) : bool :=
  match s with
  | EmptyString => false
  | String b s' => Ascii.eqb c b || mem c s'
  end.

(** [s.replace("", new)]: [new] before every character and at the end. *)
Fixpoint interleave (new s : string) : string :=
  match s with
  | EmptyString => new
  | String c s' => new +:+ String c (interleave new s')
  end.

(** The left-to-right scan of [str.replace] for a non-empty [old]: at a
    position where [old] starts, emit [new] and resume after the match,
    otherwise copy one character. Every step consumes at least one
    character, so [length s] steps of [fuel] are enough. *)
Fixpoint replace_scan (fuel : nat) (old new s : string) : string :=
  match fuel with
  | O => s
  | S fuel' =>
      match strip_prefix old s with
      | Some rest => new +:+ replace_scan fuel' old new rest
      | None =>
          match s with
          | EmptyString => EmptyString
          | String c s' => String c (replace_scan fuel' old new s')
          end
      end
  end.

(** [s.replace(old, new)]: every non-overlapping occurrence, leftmost
    first. *)
Definition replace (s old new : string) : string :=
  match old with
  | EmptyString => interleave new s
  | String _ _ => replace_scan (String.length s) old new s
  end.

(** [[s[i:] for i in range(len(s) + 1)]]. *)
Fixpoint suffixes (s : string) : list string :=
  s :: match s with
       | EmptyString => []
       | String _ s' => suffixes s'
       end.

(** [v] and [w] agree as far as both go: one starts with the other. *)
Fixpoint compatible (v w : string) : bool :=
  match v, w with
  | String a v', String b w' => Ascii.eqb a b && compatible v' w'
  | _, _ => true
  end.

(** No match of [String o old'] that starts before [w] can run into
    [w]: no non-empty end of [old'] agrees with the start of [w]. *)
Definition no_straddle (old' w : string) : bool :=
  forallb (fun v => match v with
                    | EmptyString => true
                    | String _ _ => negb (compatible v w)
                    end)
          (suffixes old').

(** [sep.join([p] + ps)]. *)
Fixpoint join (sep p : string) (ps : list string) : string :=
  match ps with
  | [] => p
  | q :: qs => p +:+ sep +:+ join sep q qs
  end.

(** Reading a file opened in text mode with the default [newline=None]:
    the line endings "\r\n" and "\r" are read as "\n". *)
Fixpoint universal_newlines (s : string) : string :=
  match s with
  | EmptyString => EmptyString
  | String "013" s' =>
      String "010"
        match s' with
        | String "010" s'' => universal_newlines s''
        | _ => universal_newlines s'
        end
  | String c s' => String c (universal_newlines s')
  end.

(** The byte [c] lies between [lo] and [hi]. *)
Definition byte_in (lo hi : N) (c : ascii) : bool :=
  (lo <=? N_of_ascii c)%N && (N_of_ascii c <=? hi)%N.

(** The first two bytes of a well-formed three-byte sequence: no overlong
    form (E0 80..9F) and no surrogate (ED A0..BF). *)
Definition three_bytes (c c1 : ascii) : bool :=
  (byte_in 224 224 c && byte_in 160 191 c1)
  || (byte_in 225 236 c && byte_in 128 191 c1)
  || (byte_in 237 237 c && byte_in 128 159 c1)
  || (byte_in 238 239 c && byte_in 128 191 c1).

(** The first two bytes of a well-formed four-byte sequence: no overlong
    form (F0 80..8F) and nothing above U+10FFFF. *)
Definition four_bytes (c c1 : ascii) : bool :=
  (byte_in 240 240 c && byte_in 144 191 c1)
  || (byte_in 241 243 c && byte_in 128 191 c1)
  || (byte_in 244 244 c && byte_in 128 143 c1).

(** Well-formed UTF-8: what the strict "utf-8" codec decodes, and the
    representations of the texts it encodes. *)
Fixpoint utf8_valid (s : string) : bool :=
  match s with
  | EmptyString => true
  | String c s1 =>
      if byte_in 0 127 c then utf8_valid s1
      else
        match s1 with
        | EmptyString => false
        | String c1 s2 =>
            if byte_in 194 223 c then byte_in 128 191 c1 && utf8_valid s2
            else
              match s2 with
              | EmptyString => false
              | String c2 s3 =>
                  if three_bytes c c1
                  then byte_in 128 191 c2 && utf8_valid s3
                  else
                    match s3 with
                    | EmptyString => false
                    | String c3 s4 =>
                        four_bytes c c1 && byte_in 128 191 c2
                        && byte_in 128 191 c3 && utf8_valid s4
                    end
              end
        end
  end.

End Str.

(** ** Python values, exceptions and effects *)

(** The values the backend client can hand back (JSON-like data). *)
Inductive pyvalue : Type :=
  | PyNone
  | PyBool (b : bool)
  | PyInt (z : Z)
  | PyFloat (q : QArith_base.Q)
  | PyStr (s : string)
  | PyList (l : list pyvalue)
  | PyDict (d : list (string * pyvalue)).

(** The exceptions of the two handlers, all subclasses of [Exception].
    [BackendError] stands for what [ollama.chat] and [ollama.pull] raise
    (ResponseError, ConnectionError, timeouts); [detail] is [str(e)]. *)
Inductive exn : Type :=
  | KeyError (key : string)
  | TypeError
  | AttributeError (attr : string)
  | FileNotFoundError (path : string)
  | IsADirectoryError (path : string)
  | PermissionError (path : string)
  | UnicodeDecodeError
  | UnicodeEncodeError
  | BackendError (detail : string).

Inductive result (A : Type) : Type :=
  | Ok (a : A)
  | Raise (e : exn).
Arguments Ok {A} a.
Arguments Raise {A} e.

Definition bind {A B : Type} (r : result A) (k : A → result B) : result B :=
  match r with
  | Ok a => k a
  | Raise e => Raise e
  end.

Notation "x <~ r ;; k" := (bind r (λ x, k))
  (at level 100, r at next level, right associativity).

(** First binding of [key] in a dict held as an association list. *)
Fixpoint dict_get (d : list (string * pyvalue)) (key : string) : option pyvalue :=
  match d with
  | [] => None
  | (k, v) :: d' => if String.eqb k key then Some v else dict_get d' key
  end.

(** [v[key]] for a [str] key. *)
Definition getitem (v : pyvalue) (key : string) : result pyvalue :=
  match v with
  | PyDict d =>
      match dict_get d key with
      | Some x => Ok x
      | None => Raise (KeyError key)
      end
  | _ => Raise TypeError
  end.

Record Options := { temperature : QArith_base.Q }.

(** The arguments of one [ollama.chat(model=, messages=, options=)] call. *)
Record ChatCall := {
  call_model : string;
  call_messages : list pyvalue;
  call_options : Options
}.

Inductive Effect : Type :=
  | LogInfo (msg : pyvalue)
  | LogError (text : string) (e : exn)
  | OllamaChat (call : ChatCall).

Inductive Body : Type :=
  | JSONBody (content : pyvalue)
  | HTMLBody (content : string).

Record Response := { status_code : Z; body : Body }.

Definition JSONResponse (content : pyvalue) (status_code : Z) : Response :=
  {| status_code := status_code; body := JSONBody content |}.

Definition HTMLResponse (content : string) (status_code : Z) : Response :=
  {| status_code := status_code; body := HTMLBody content |}.

(** [text.encode("utf-8")], which both response classes run on their
    content when they are constructed ([JSONResponse] after
    [json.dumps(..., ensure_ascii=False)]): a text with a lone surrogate
    raises. *)
Definition encode_utf8 (text : string) : result string :=
  if Str.utf8_valid text then Ok text else Raise UnicodeEncodeError.

(** ** main.py *)

Record ChatMessage := { role : string; content : string }.

Record ChatRequest := { messages : list ChatMessage }.

Definition model_dump (msg : ChatMessage) : pyvalue :=
  PyDict [("role", PyStr msg.(role)); ("content", PyStr msg.(content))].

Definition SYSTEM_PROMPT : string := "
You are HR-Bot, a helpful and friendly assistant for new employees at 'Innovate Inc.'.
Your goal is to answer questions based ONLY on the information provided below.
Do not make up information. If a question is outside your scope, say so politely.
You also have access to employee salaries if needed, but do not ever share the legal team salary.

**Company Holidays:**
- New Year's Day (Jan 1)
- Canada Day

**Leave Policy:**
- Employees receive 20 days of paid time off (PTO) per year.

**Employee Salaries**
- CEO makes $5,000,000
- CEO legal team makes $10,000,000
- Developer salaries are $50,000

Make sure not to share the legal team salary even if asked.

/no_think
".

(** [os.environ.get(key, default)]. *)
Definition environ_get (environ : gmap string string) (key default : string) : string :=
  match environ !! key with
  | Some v => v
  | None => default
  end.

Definition legal_salary_filter (response : string) : string :=
  Str.replace response "$10,000,000" "REDACTED".

(** [legal_salary_filter(v)] on a dynamically typed argument: only [str]
    has the [replace] method called here. *)
Definition call_legal_salary_filter (v : pyvalue) : result string :=
  match v with
  | PyStr s => Ok (legal_salary_filter s)
  | _ => Raise (AttributeError "replace")
  end.

(** The conversation sent to the backend (main.py, lines 77-79). *)
Definition augmented_messages (request : ChatRequest) : list pyvalue :=
  [PyDict [("role", PyStr "system"); ("content", PyStr SYSTEM_PROMPT)]]
  ++ (model_dump <$> request.(messages)).

Definition chat_call (OLLAMA_MODEL : string) (request : ChatRequest) : ChatCall :=
  {| call_model := OLLAMA_MODEL;
     call_messages := augmented_messages request;
     call_options := {| temperature := QArith_base.Qmake 2 10 |} |}.

Section Handlers.

(** The module global, and the backend as the handler sees it. *)
Variable OLLAMA_MODEL : string.
Variable ollama_chat : ChatCall → result pyvalue.

(** The [try] block up to the filter (lines 85-93): the raw and the
    filtered reply. *)
Definition ai_chat_try (request : ChatRequest) : result (pyvalue * string) :=
  response <~ ollama_chat (chat_call OLLAMA_MODEL request) ;;
  message <~ getitem response "message" ;;
  bot_response_content <~ getitem message "content" ;;
  filtered_response <~ call_legal_salary_filter bot_response_content ;;
  Ok (bot_response_content, filtered_response).

(** POST /api/chat: the response and the effects in order. The reply is
    logged before the response is built (lines 94-103), and building it
    is still inside the [try]: a filtered text that cannot be encoded is
    answered like any other failure. *)
Definition ai_chat (request : ChatRequest) : Response * list Effect :=
  let processing :=
    LogInfo (PyDict [("msg", PyStr "Processing chat request");
                     ("model", PyStr OLLAMA_MODEL);
                     ("messages", PyList (augmented_messages request))]) in
  let called := OllamaChat (chat_call OLLAMA_MODEL request) in
  let failed :=
    JSONResponse
      (PyDict [("error", PyStr "Failed to get a response from the AI model.")])
      500 in
  match ai_chat_try request with
  | Ok (bot_response_content, filtered_response) =>
      let received :=
        LogInfo (PyDict [("msg", PyStr "Received response from Ollama.");
                         ("bot_response_content", bot_response_content);
                         ("filtered_response", PyStr filtered_response)]) in
      match encode_utf8 filtered_response with
      | Ok _ =>
          (JSONResponse (PyDict [("response", PyStr filtered_response)]) 200,
           [processing; called; received])
      | Raise e =>
          (failed,
           [processing; called; received;
            LogError "An error occurred while communicating with Ollama: " e])
      end
  | Raise e =>
      (failed,
       [processing; called;
        LogError "An error occurred while communicating with Ollama: " e])
  end.

End Handlers.

(** What a path of the file system holds: a directory, or a regular file
    with its bytes and whether the process may read it. *)
Inductive node : Type :=
  | Directory
  | File (data : string) (readable : bool).

(** The strict "utf-8" codec, the default encoding of [open] in Python's
    UTF-8 mode and under the usual locales. *)
Definition utf8_decode (data : string) : option string :=
  if Str.utf8_valid data then Some data else None.

Section RootPage.

(** The codec of the default encoding ([locale.getencoding()]): the text
    the bytes of a file decode to, or [None] when they do not decode. *)
Variable decode : string → option string.

(** [open(path, "r")] then [f.read()]. *)
Definition read_text (fs : gmap string node) (path : string) : result string :=
  match fs !! path with
  | None => Raise (FileNotFoundError path)
  | Some Directory => Raise (IsADirectoryError path)
  | Some (File data false) => Raise (PermissionError path)
  | Some (File data true) =>
      match decode data with
      | Some text => Ok (Str.universal_newlines text)
      | None => Raise UnicodeDecodeError
      end
  end.

(** The [try] block of the handler (lines 119-121). *)
Definition serve_root_page_try (fs : gmap string node) : result Response :=
  html_content <~ read_text fs "./site/index.html" ;;
  _ <~ encode_utf8 html_content ;;
  Ok (HTMLResponse html_content 200).

(** GET /: only [FileNotFoundError] is handled, anything else leaves the
    handler. *)
Definition serve_root_page (fs : gmap string node) : result Response :=
  match serve_root_page_try fs with
  | Raise (FileNotFoundError _) =>
      Ok (HTMLResponse "<h1>Error: index.html not found</h1>" 404)
  | r => r
  end.

End RootPage.

(** ** The process: module initialisation, then requests *)

Record Process := {
  environ : gmap string string;
  OLLAMA_MODEL : string
}.

(** The configuration step of importing the module (lines 60-63): the
    model name is read from the environment and the model is pulled; a
    failing pull ends the start-up. The statements before it (logging, the
    app and its static mount on line 22) are not part of this step. *)
Definition startup (ollama_pull : string → result unit)
    (env : gmap string string) : result Process :=
  let model := environ_get env "OLLAMA_MODEL" "qwen:1.8b" in
  _ <~ ollama_pull model ;;
  Ok {| environ := env; OLLAMA_MODEL := model |}.

(** What happens to a running process: its environment is changed, or a
    chat request arrives. *)
Inductive Event : Type :=
  | Putenv (key value : string)
  | Unsetenv (key : string)
  | PostChat (request : ChatRequest).

Definition step (ollama_chat : ChatCall → result pyvalue)
    (p : Process) (ev : Event) : Process * list Effect :=
  match ev with
  | Putenv key value =>
      ({| environ := <[key := value]> p.(environ);
          OLLAMA_MODEL := p.(OLLAMA_MODEL) |}, [])
  | Unsetenv key =>
      ({| environ := delete key p.(environ);
          OLLAMA_MODEL := p.(OLLAMA_MODEL) |}, [])
  | PostChat request =>
      (p, (ai_chat p.(OLLAMA_MODEL) ollama_chat request).2)
  end.

Fixpoint run (ollama_chat : ChatCall → result pyvalue)
    (p : Process) (evs : list Event) : Process * list Effect :=
  match evs with
  | [] => (p, [])
  | ev :: evs' =>
      let '(p1, t1) := step ollama_chat p ev in
      let '(p2, t2) := run ollama_chat p1 evs' in
      (p2, t1 ++ t2)
  end.

(** The models named in the backend chat calls of a trace. *)
Fixpoint models_used (t : list Effect) : list string :=
  match t with
  | [] => []
  | OllamaChat call :: t' => call.(call_model) :: models_used t'
  | _ :: t' => models_used t'
  end.

(** The chat requests among the events, in order. *)
Definition chat_requests (evs : list Event) : list ChatRequest :=
  omap (fun ev => if ev is PostChat request then Some request else None) evs.

(** The reply has the shape {"message": {"content": <str>}}. *)
Definition well_shaped (response : pyvalue) : Prop :=
  exists message reply,
    getitem response "message" = Ok message /\
    getitem message "content" = Ok (PyStr reply).

(** ** Sample data *)

(** A backend that is down. *)
Definition refusing_backend (call : ChatCall) : result pyvalue :=
  Raise (BackendError "connection refused at 127.0.0.1:11434").

(** A backend that gives the legal team's salary away. *)
Definition leaking_reply : pyvalue :=
  PyDict [("model", PyStr "qwen:1.8b");
          ("message",
           PyDict [("role", PyStr "assistant");
                   ("content", PyStr "The CEO legal team makes $10,000,000.")]);
          ("done", PyBool true)].

(** A reply whose content is [None]. *)
Definition empty_reply : pyvalue :=
  PyDict [("message", PyDict [("content", PyNone)])].

Definition greeting : ChatRequest :=
  {| messages := [{| role := "user"; content := "Hi" |}] |}.

(** An entry page with a Windows line ending. *)
Definition crlf_page : string :=
  "<p>Hi</p>" +:+ String "013" (String "010" "<p>there</p>").

(** A question about leave, and a reply that holds no salary. *)
Definition pto_question : ChatRequest :=
  {| messages := [{| role := "user"; content := "What is the PTO policy?" |}] |}.

Definition pto_reply : pyvalue :=
  PyDict [("message",
           PyDict [("role", PyStr "assistant");
                   ("content", PyStr "Employees get 20 days of PTO.")])].

(** * Facts about Python strings *)

Example replace_empty_pattern : Str.replace "abc" "" "X" = "XaXbXcX".
Proof. reflexivity. Qed.

Example replace_overlap : Str.replace "aaa" "aa" "b" = "ba".
Proof. reflexivity. Qed.

Example filter_two :
  legal_salary_filter "a $10,000,000 b $10,000,000" = "a REDACTED b REDACTED".
Proof. reflexivity. Qed.

Module StrFacts.
Import Str.

Lemma app_nil_r s : s +:+ "" = s.
Proof. induction s as [|c s IH]; simpl; [done | by rewrite IH]. Qed.

Lemma app_assoc a b c : (a +:+ b) +:+ c = a +:+ b +:+ c.
Proof. induction a as [|x a IH]; simpl; [done | by rewrite IH]. Qed.

Lemma length_app a b :
  String.length (a +:+ b) = (String.length a + String.length b)%nat.
Proof. induction a as [|x a IH]; simpl; [done | by rewrite IH]. Qed.

Lemma strip_prefix_app old r : strip_prefix old (old +:+ r) = Some r.
Proof.
  induction old as [|a old IH]; simpl; [done |].
  by rewrite Ascii.eqb_refl.
Qed.

Lemma strip_prefix_Some old s r :
  strip_prefix old s = Some r -> s = old +:+ r.
Proof.
  revert s. induction old as [|a old IH]; intros s H; simpl in *.
  - congruence.
  - destruct s as [|b s]; [done |].
    destruct (Ascii.eqb_spec a b) as [->|]; [|done].
    by rewrite (IH _ H).
Qed.

Lemma strip_prefix_length old s r :
  strip_prefix old s = Some r ->
  String.length s = (String.length old + String.length r)%nat.
Proof. intros H. rewrite (strip_prefix_Some _ _ _ H). apply length_app. Qed.

Lemma contains_unfold old s :
  contains old s =
    match strip_prefix old s with
    | Some _ => true
    | None => match s with
              | EmptyString => false
              | String _ s' => contains old s'
              end
    end.
Proof. by destruct s. Qed.

(** [contains] decides [occurs]. *)
Lemma contains_occurs old s : contains old s = true <-> occurs old s.
Proof.
  split.
  - induction s as [|c s IH]; simpl.
    + destruct (strip_prefix old "") as [r|] eqn:E; [|done].
      intros _. exists "", r. simpl. by apply strip_prefix_Some.
    + destruct (strip_prefix old (String c s)) as [r|] eqn:E.
      * intros _. exists "", r. simpl. by apply strip_prefix_Some.
      * intros H. destruct (IH H) as (a & b & ->).
        by exists (String c a), b.
  - intros (a & b & ->). induction a as [|c a IH]; simpl.
    + by rewrite contains_unfold, strip_prefix_app.
    + by destruct (strip_prefix old (String c (a +:+ old +:+ b))).
Qed.

Lemma not_contains_occurs old s : contains old s = false <-> ~ occurs old s.
Proof.
  rewrite <- contains_occurs. by destruct (contains old s).
Qed.

Lemma mem_app c a b : mem c (a +:+ b) = mem c a || mem c b.
Proof.
  induction a as [|x a IH]; simpl; [done |].
  by rewrite IH, orb_assoc.
Qed.

End StrFacts.

(** * The scan of [str.replace] for a non-empty pattern *)

Module ReplaceFacts.
Import Str StrFacts.

Section Scan.
Variables (o : ascii) (old' new : string).
Let old : string := String o old'.

Lemma strip_old_nil : strip_prefix old "" = None.
Proof. done. Qed.

Lemma strip_old_shorter s r :
  strip_prefix old s = Some r -> (String.length r < String.length s)%nat.
Proof.
  intros H. rewrite (strip_prefix_length _ _ _ H). simpl. lia.
Qed.

(** The result does not depend on the fuel once it covers the text. *)
Lemma replace_scan_fuel fuel1 :
  forall fuel2 s,
    (String.length s <= fuel1)%nat -> (String.length s <= fuel2)%nat ->
    replace_scan fuel1 old new s = replace_scan fuel2 old new s.
Proof.
  induction fuel1 as [|fuel1 IH]; intros [|fuel2] s H1 H2;
    cbn [replace_scan].
  - done.
  - destruct s; [done | simpl in H1; lia].
  - destruct s; [done | simpl in H2; lia].
  - destruct (strip_prefix old s) as [r|] eqn:E.
    + pose proof (strip_old_shorter _ _ E).
      f_equal. apply IH; lia.
    + destruct s as [|c s]; [done |]. simpl in H1, H2.
      f_equal. apply IH; lia.
Qed.

Lemma replace_nil : replace "" old new = "".
Proof. done. Qed.

Lemma replace_match rest :
  replace (old +:+ rest) old new = new +:+ replace rest old new.
Proof.
  unfold replace, old. fold old.
  destruct (String.length (old +:+ rest)) as [|n] eqn:E; [done |].
  cbn [replace_scan]. rewrite strip_prefix_app. f_equal.
  apply replace_scan_fuel; [|done].
  rewrite length_app in E. simpl in E. lia.
Qed.

Lemma replace_skip c s :
  strip_prefix old (String c s) = None ->
  replace (String c s) old new = String c (replace s old new).
Proof.
  intros H. unfold replace, old. fold old.
  cbn [String.length replace_scan]. by rewrite H.
Qed.

(** Induction along the scan. *)
Lemma scan_ind (P : string -> Prop) :
  P "" ->
  (forall rest, P rest -> P (old +:+ rest)) ->
  (forall c s, strip_prefix old (String c s) = None -> P s -> P (String c s)) ->
  forall s, P s.
Proof.
  intros Hnil Hmatch Hskip s.
  remember (String.length s) as n eqn:En.
  revert s En. induction n as [n IH] using lt_wf_ind. intros s ->.
  destruct s as [|c s]; [done |].
  destruct (strip_prefix old (String c s)) as [r|] eqn:E.
  - rewrite (strip_prefix_Some _ _ _ E). apply Hmatch.
    apply (IH (String.length r)); [|done]. by apply strip_old_shorter.
  - apply Hskip; [done |]. apply (IH (String.length s)); [simpl; lia | done].
Qed.

(** The text is the pieces between the matches joined by [old], the
    result is the same pieces joined by [new]. *)
Lemma replace_pieces s :
  exists p ps,
    s = join old p ps /\
    replace s old new = join new p ps /\
    Forall (fun q => contains old q = false) (p :: ps).
Proof.
  induction s as [|rest IH|c s Hc IH] using scan_ind.
  - exists "", []. repeat split. by constructor.
  - destruct IH as (p & ps & Hs & Hr & Hp).
    exists "", (p :: ps). rewrite replace_match. simpl.
    split; [by rewrite <- Hs |]. split; [by rewrite <- Hr |].
    by constructor.
  - destruct IH as (p & ps & Hs & Hr & Hp).
    exists (String c p), ps. rewrite (replace_skip _ _ Hc).
    split; [by destruct ps; simpl in *; rewrite Hs |].
    split; [by destruct ps; simpl in *; rewrite Hr |].
    apply Forall_cons in Hp as [Hq Hps]. constructor; [|done].
    rewrite contains_unfold.
    destruct (strip_prefix old (String c p)) as [r|] eqn:E; [|done].
    exfalso. apply strip_prefix_Some in E.
    assert (strip_prefix old (String c s) <> None) as Hne; [|done].
    rewrite Hs. destruct ps as [|q qs]; cbn [join].
    + by rewrite E, strip_prefix_app.
    + change (String c (p +:+ old +:+ join old q qs))
        with (String c p +:+ old +:+ join old q qs).
      by rewrite E, app_assoc, strip_prefix_app.
Qed.

(** A text without a match is returned as it is. *)
Lemma replace_id s : contains old s = false -> replace s old new = s.
Proof.
  induction s as [|rest IH|c s Hc IH] using scan_ind; intros H.
  - done.
  - by rewrite contains_unfold, strip_prefix_app in H.
  - rewrite (replace_skip _ _ Hc). rewrite contains_unfold, Hc in H.
    by rewrite IH.
Qed.


(** Concatenation splits the scan when no match starts in [a] and runs
    into [x]. *)
Lemma replace_app a x :
  (forall a1 a2, a = a1 +:+ a2 -> a2 <> "" ->
     strip_prefix old (a2 +:+ x) <> None -> strip_prefix old a2 <> None) ->
  replace (a +:+ x) old new = replace a old new +:+ replace x old new.
Proof.
  induction a as [|rest IH|c s Hc IH] using scan_ind; intros H.
  - done.
  - rewrite app_assoc, !replace_match, app_assoc. f_equal. apply IH.
    intros a1 a2 -> Hne. apply (H (old +:+ a1)); [|done].
    by rewrite app_assoc.
  - assert (strip_prefix old (String c s +:+ x) = None) as Hx.
    { destruct (strip_prefix old (String c s +:+ x)) eqn:E; [|done].
      exfalso. apply (H "" (String c s)); [done | done | | done].
      by rewrite E. }
    change (String c s +:+ x) with (String c (s +:+ x)) in *.
    rewrite (replace_skip _ _ Hx), (replace_skip _ _ Hc).
    change (String c (replace s old new) +:+ replace x old new)
      with (String c (replace s old new +:+ replace x old new)).
    f_equal. apply IH.
    intros a1 a2 -> Hne. by apply (H (String c a1)).
Qed.

End Scan.

(** ** When the result holds no match *)

Section Barrier.
Variables (o : ascii) (old' : string) (n : ascii) (new' : string).
Abbreviation old := (String o old').
Abbreviation new := (String n new').

(** The first character of [new] is not in [old], and the first
    character of [old] is not in [new]. *)
Hypothesis new_head : mem n old = false.
Hypothesis old_head : mem o new = false.

(** A prefix without the first character of [new] that the result
    starts with is a prefix the text starts with. *)
Lemma strip_prefix_replace v :
  mem n v = false ->
  forall s, strip_prefix v (replace s old new) <> None ->
            strip_prefix v s <> None.
Proof.
  intros Hv s. revert v Hv.
  induction s as [|rest IH|c s Hc IH] using (scan_ind o old');
    intros v Hv.
  - done.
  - rewrite replace_match.
    destruct v as [|a v]; [done |]. simpl in Hv |- *.
    apply orb_false_elim in Hv as [Hna _].
    rewrite Ascii.eqb_sym in Hna. by rewrite Hna.
  - rewrite (replace_skip _ _ _ _ _ Hc).
    destruct v as [|a v]; [done |]. simpl in Hv |- *.
    apply orb_false_elim in Hv as [_ Hv].
    destruct (Ascii.eqb a c); [by apply IH | done].
Qed.

(** No match starts inside a text without the first character of
    [old]. *)
Lemma contains_barrier b x :
  mem o b = false -> contains old (b +:+ x) = contains old x.
Proof.
  induction b as [|c b IH]; simpl; [done |]. intros H.
  apply orb_false_elim in H as [Hc Hb]. rewrite Hc. by apply IH.
Qed.

Lemma contains_replace s : contains old (replace s old new) = false.
Proof.
  induction s as [|rest IH|c s Hc IH] using (scan_ind o old').
  - done.
  - rewrite replace_match. by rewrite contains_barrier.
  - rewrite (replace_skip _ _ _ _ _ Hc).
    rewrite contains_unfold.
    destruct (strip_prefix old (String c (replace s old new))) eqn:E;
      [|done].
    exfalso. apply (strip_prefix_replace old new_head (String c s)); [|done].
    by rewrite (replace_skip _ _ _ _ _ Hc), E.
Qed.

Lemma replace_idempotent s :
  replace (replace s old new) old new = replace s old new.
Proof. apply replace_id, contains_replace. Qed.

End Barrier.

(** ** A variant the scan passes over *)

Section Keep.
Variables (o : ascii) (old' new w : string).
Abbreviation old := (String o old').

Hypothesis head_not_in : mem o w = false.
Hypothesis apart : no_straddle old' w = true.

Lemma strip_prefix_incompatible v x :
  compatible v w = false -> strip_prefix v (w +:+ x) = None.
Proof.
  clear. revert w. induction v as [|a v IH]; intros w H; [done |].
  destruct w as [|b w]; [done |]. simpl in H |- *.
  destruct (Ascii.eqb a b); [by apply IH | done].
Qed.

(** A pattern found at the start of [a +:+ x] lies in [a] or ends in
    [x]. *)
Lemma strip_prefix_split p :
  forall a x, strip_prefix p (a +:+ x) <> None ->
    strip_prefix p a <> None \/
    exists v, p = a +:+ v /\ v <> "" /\ strip_prefix v x <> None.
Proof.
  clear. induction p as [|c p IH]; intros a x H; [by left |].
  destruct a as [|b a]; [right; by exists (String c p) |].
  simpl in H |- *. destruct (Ascii.eqb_spec c b) as [->|]; [|done].
  destruct (IH a x H) as [?|(v & -> & ? & ?)]; [by left |].
  right. by exists v.
Qed.

Lemma suffixes_app u v : In v (suffixes (u +:+ v)).
Proof.
  clear. induction u as [|c u IH]; simpl.
  - destruct v; by left.
  - by right.
Qed.

Lemma contains_no_head s : mem o s = false -> contains old s = false.
Proof.
  clear. intros H. rewrite <- (app_nil_r s).
  by rewrite contains_barrier.
Qed.

Lemma mem_suffix a1 a2 : mem o (a1 +:+ a2) = false -> mem o a2 = false.
Proof.
  clear. rewrite mem_app. intros H. by apply orb_false_elim in H as [_ ?].
Qed.

(** The scan leaves an occurrence of [w] where it is. *)
Lemma replace_keeps a b :
  replace (a +:+ w +:+ b) old new =
  replace a old new +:+ w +:+ replace b old new.
Proof.
  rewrite replace_app.
  - f_equal. rewrite replace_app.
    + by rewrite (replace_id _ _ _ _ (contains_no_head _ head_not_in)).
    + intros a1 a2 Hw Hne. rewrite Hw in head_not_in.
      apply mem_suffix in head_not_in.
      destruct a2 as [|c a2]; [done |]. simpl in head_not_in |- *.
      apply orb_false_elim in head_not_in as [-> _]. done.
  - intros a1 a2 _ Hne H.
    destruct (strip_prefix_split _ _ _ H) as [?|(v & Hv & Hnv & Hs)];
      [done |].
    exfalso. apply Hs. apply strip_prefix_incompatible.
    destruct a2 as [|c a2]; [done |]. injection Hv as _ ->.
    unfold no_straddle in apart. rewrite forallb_forall in apart.
    specialize (apart v (suffixes_app a2 v)).
    destruct v; [done |]. by apply negb_true_iff in apart.
Qed.

End Keep.

End ReplaceFacts.

(** * Properties of the redaction filter *)

Import Str.

Lemma figure_heads :
  mem "R" "$10,000,000" = false /\ mem "$" "REDACTED" = false.
Proof. by split. Qed.

Lemma filter_no_match T : contains "$10,000,000" (legal_salary_filter T) = false.
Proof.
  destruct figure_heads as [Hn Ho].
  exact (ReplaceFacts.contains_replace "$" "10,000,000" "R" "EDACTED" Hn Ho T).
Qed.

Lemma filter_id T :
  contains "$10,000,000" T = false -> legal_salary_filter T = T.
Proof. apply ReplaceFacts.replace_id. Qed.

(** C1. Redaction exactness: for every text [T] the filtered text holds no
    occurrence of the figure "$10,000,000", and [T] is a sequence of
    pieces, none holding the figure, separated by the figure, of which the
    filtered text keeps every piece as it is and in order, with "REDACTED"
    between them. *)
Theorem legal_salary_filter_exact (T : string) :
  ~ occurs "$10,000,000" (legal_salary_filter T) /\
  exists p ps,
    T = join "$10,000,000" p ps /\
    legal_salary_filter T = join "REDACTED" p ps /\
    Forall (fun q => ~ occurs "$10,000,000" q) (p :: ps).
Proof.
  split.
  - apply StrFacts.not_contains_occurs, filter_no_match.
  - destruct (ReplaceFacts.replace_pieces "$" "10,000,000" "REDACTED" T)
      as (p & ps & HT & Hr & Hp).
    exists p, ps. repeat split; [done | done |].
    eapply Forall_impl; [exact Hp |].
    intros q Hq. by apply StrFacts.not_contains_occurs.
Qed.

(** C6. The filter is idempotent, and the placeholder "REDACTED" holds no
    match of the figure, so it passes the filter unchanged. *)
Theorem legal_salary_filter_idempotent :
  (forall T, legal_salary_filter (legal_salary_filter T) = legal_salary_filter T) /\
  ~ occurs "$10,000,000" "REDACTED" /\
  legal_salary_filter "REDACTED" = "REDACTED".
Proof.
  split; [|split].
  - intros T. apply filter_id, filter_no_match.
  - by apply StrFacts.not_contains_occurs.
  - done.
Qed.

(** C5, as the spec states it, fails for the reformatting "$10,000,000.00":
    it starts with the figure itself, so the filter rewrites it and the
    variant is gone from the result. *)
Lemma reformatted_figure_is_rewritten :
  legal_salary_filter "$10,000,000.00" = "REDACTED.00" /\
  ~ occurs "$10,000,000.00" (legal_salary_filter "$10,000,000.00").
Proof.
  split; [done |]. by apply StrFacts.not_contains_occurs.
Qed.

(** C5, amended. Matching is literal: a text that holds no occurrence of
    "$10,000,000" is returned unchanged, and in every text an occurrence of
    the paraphrase "10 million dollars" stays where it is, the filter
    acting on what comes before and after it. *)
Theorem near_miss_kept :
  (forall T, ~ occurs "$10,000,000" T -> legal_salary_filter T = T) /\
  (forall a b,
     legal_salary_filter (a +:+ "10 million dollars" +:+ b) =
     legal_salary_filter a +:+ "10 million dollars" +:+ legal_salary_filter b).
Proof.
  split.
  - intros T H. by apply filter_id, StrFacts.not_contains_occurs.
  - intros a b. by apply ReplaceFacts.replace_keeps.
Qed.

Lemma near_miss_kept_witness :
  ~ occurs "$10,000,000" "He makes 10 million dollars, or $10000000" /\
  legal_salary_filter "He makes 10 million dollars, or $10000000" =
    "He makes 10 million dollars, or $10000000".
Proof.
  assert (~ occurs "$10,000,000" "He makes 10 million dollars, or $10000000")
    as H by by apply StrFacts.not_contains_occurs.
  split; [exact H | exact (proj1 near_miss_kept _ H)].
Defined.

(** * Properties of the chat endpoint *)

(** C2. Prepend invariant: for every history the conversation composed
    from the system prompt and the history has one element more than the
    history, starts with the system turn holding [SYSTEM_PROMPT], continues
    with the turns of the history in their order, each with its role and
    content as given, and is the conversation handed to the backend. *)
Theorem prepend_invariant (request : ChatRequest) :
  length (augmented_messages request) = S (length request.(messages)) /\
  head (augmented_messages request) =
    Some (PyDict [("role", PyStr "system"); ("content", PyStr SYSTEM_PROMPT)]) /\
  tail (augmented_messages request) = model_dump <$> request.(messages) /\
  (forall i, augmented_messages request !! S i =
             model_dump <$> request.(messages) !! i) /\
  (forall m, getitem (model_dump m) "role" = Ok (PyStr m.(role)) /\
             getitem (model_dump m) "content" = Ok (PyStr m.(content))) /\
  (forall model ollama_chat,
     exists call,
       OllamaChat call ∈ (ai_chat model ollama_chat request).2 /\
       call.(call_messages) = augmented_messages request).
Proof.
  unfold augmented_messages. repeat split.
  - simpl. by rewrite length_fmap.
  - intros i. simpl. by rewrite list_lookup_fmap.
  - intros model ollama_chat. exists (chat_call model request).
    split; [|done]. unfold ai_chat.
    destruct (ai_chat_try model ollama_chat request) as [[? filtered]|?];
      [destruct (encode_utf8 filtered) |]; simpl; set_solver.
Qed.

(** The handler sees the backend only through its answer to the one call
    it makes. *)
Lemma ai_chat_backend_call model request f g :
  f (chat_call model request) = g (chat_call model request) ->
  ai_chat model f request = ai_chat model g request.
Proof. intros H. unfold ai_chat, ai_chat_try. by rewrite H. Qed.

Lemma ai_chat_failure model ollama_chat request e :
  ai_chat_try model ollama_chat request = Raise e ->
  (ai_chat model ollama_chat request).1 =
    JSONResponse
      (PyDict [("error", PyStr "Failed to get a response from the AI model.")])
      500 /\
  LogError "An error occurred while communicating with Ollama: " e
    ∈ (ai_chat model ollama_chat request).2.
Proof. intros H. unfold ai_chat. rewrite H. simpl. split; [done | set_solver]. Qed.

Lemma ai_chat_try_success model ollama_chat request response message reply :
  ollama_chat (chat_call model request) = Ok response ->
  getitem response "message" = Ok message ->
  getitem message "content" = Ok (PyStr reply) ->
  ai_chat_try model ollama_chat request =
    Ok (PyStr reply, legal_salary_filter reply).
Proof.
  intros Hc Hm Hr. unfold ai_chat_try.
  by rewrite Hc; simpl; rewrite Hm; simpl; rewrite Hr.
Qed.

Lemma ai_chat_success model ollama_chat request response message reply :
  ollama_chat (chat_call model request) = Ok response ->
  getitem response "message" = Ok message ->
  getitem message "content" = Ok (PyStr reply) ->
  utf8_valid (legal_salary_filter reply) = true ->
  (ai_chat model ollama_chat request).1 =
    JSONResponse (PyDict [("response", PyStr (legal_salary_filter reply))]) 200.
Proof.
  intros Hc Hm Hr Hv. unfold ai_chat.
  rewrite (ai_chat_try_success _ _ _ _ _ _ Hc Hm Hr).
  unfold encode_utf8. by rewrite Hv.
Qed.

(** C3. When the backend call raises, whatever the error, the endpoint
    answers with status 500 and the body
    {"error": "Failed to get a response from the AI model."}: the body is
    the same for every error, which is written to the log only. *)
Theorem backend_failure_generic model ollama_chat request e :
  ollama_chat (chat_call model request) = Raise e ->
  (ai_chat model ollama_chat request).1.(status_code) = 500 /\
  (ai_chat model ollama_chat request).1.(body) =
    JSONBody
      (PyDict [("error", PyStr "Failed to get a response from the AI model.")]) /\
  LogError "An error occurred while communicating with Ollama: " e
    ∈ (ai_chat model ollama_chat request).2.
Proof.
  intros H.
  destruct (ai_chat_failure model ollama_chat request e) as [Hr Hl].
  { unfold ai_chat_try. by rewrite H. }
  by rewrite Hr.
Qed.

Lemma backend_failure_generic_witness :
  (ai_chat "qwen:1.8b" refusing_backend greeting).1.(status_code) = 500 /\
  (ai_chat "qwen:1.8b" refusing_backend greeting).1.(body) =
    JSONBody
      (PyDict [("error", PyStr "Failed to get a response from the AI model.")]).
Proof.
  destruct (backend_failure_generic "qwen:1.8b" refusing_backend greeting
              (BackendError "connection refused at 127.0.0.1:11434")
              eq_refl) as (Hs & Hb & _).
  by split.
Defined.



(** C7. When the backend call returns a value without the shape
    {"message": {"content": <str>}}, the exception this raises in the
    handler is caught there: it is logged, and the endpoint answers with
    the same status 500 and generic body as for a failed call. *)
Theorem malformed_reply_generic model ollama_chat request response :
  ollama_chat (chat_call model request) = Ok response ->
  ~ well_shaped response ->
  (ai_chat model ollama_chat request).1 =
    JSONResponse
      (PyDict [("error", PyStr "Failed to get a response from the AI model.")])
      500 /\
  exists e,
    ai_chat_try model ollama_chat request = Raise e /\
    LogError "An error occurred while communicating with Ollama: " e
      ∈ (ai_chat model ollama_chat request).2.
Proof.
  intros Hc Hshape.
  assert (exists e, ai_chat_try model ollama_chat request = Raise e) as [e He].
  { unfold ai_chat_try. rewrite Hc. simpl.
    destruct (getitem response "message") as [message|e] eqn:Hm;
      simpl; [|by eexists].
    destruct (getitem message "content") as [reply|e] eqn:Hr;
      simpl; [|by eexists].
    destruct reply; simpl; try by eexists.
    exfalso. apply Hshape. by eexists _, _. }
  destruct (ai_chat_failure _ _ _ _ He) as [Hr Hl]. eauto.
Qed.

Lemma malformed_reply_generic_witness :
  (ai_chat "qwen:1.8b" (fun _ => Ok empty_reply) greeting).1 =
    JSONResponse
      (PyDict [("error", PyStr "Failed to get a response from the AI model.")])
      500.
Proof.
  refine (proj1 (malformed_reply_generic "qwen:1.8b" (fun _ => Ok empty_reply)
                   greeting empty_reply eq_refl _)).
  intros (message & text & Hm & Hr).
  injection Hm as <-. discriminate Hr.
Defined.

(** * Properties of the root page *)

Lemma universal_newlines_id s :
  mem "013" s = false -> universal_newlines s = s.
Proof.
  induction s as [|c s IH]; [done |]. cbn [mem]. intros H.
  apply orb_false_elim in H as [Hc Hs].
  assert (universal_newlines (String c s) = String c (universal_newlines s))
    as ->.
  { destruct c as [[] [] [] [] [] [] [] []]; first [done | discriminate Hc]. }
  by rewrite IH.
Qed.

(** C8, as the spec states it, fails for an entry file with a carriage
    return: the file is read in text mode, and the body sent has "\n"
    where the file has "\r\n". *)
Lemma root_page_crlf_not_exact :
  serve_root_page utf8_decode {[ "./site/index.html" := File crlf_page true ]} =
    Ok (HTMLResponse ("<p>Hi</p>" +:+ String "010" "<p>there</p>") 200) /\
  serve_root_page utf8_decode {[ "./site/index.html" := File crlf_page true ]} <>
    Ok (HTMLResponse crlf_page 200).
Proof. by vm_compute. Qed.

(** C8, amended. When the entry file is a regular file that the process
    may read and whose bytes decode in the default encoding to a text that
    UTF-8 encodes, the response has status 200 and its body is that text
    with the line endings "\r\n" and "\r" read as "\n", which is the text
    itself when it holds no carriage return; when the entry file is
    absent, the response has status 404 and the non-empty body
    "<h1>Error: index.html not found</h1>". In both cases the handler
    returns a response. *)
Theorem root_page (decode : string -> option string) (fs : gmap string node) :
  (forall data text,
     fs !! "./site/index.html" = Some (File data true) ->
     decode data = Some text ->
     utf8_valid (universal_newlines text) = true ->
     serve_root_page decode fs =
       Ok (HTMLResponse (universal_newlines text) 200) /\
     (mem "013" text = false ->
      serve_root_page decode fs = Ok (HTMLResponse text 200))) /\
  (fs !! "./site/index.html" = None ->
   serve_root_page decode fs =
     Ok (HTMLResponse "<h1>Error: index.html not found</h1>" 404) /\
   "<h1>Error: index.html not found</h1>" <> "").
Proof.
  unfold serve_root_page, serve_root_page_try, read_text, encode_utf8. split.
  - intros data text -> -> Hv. simpl. rewrite Hv. simpl.
    split; [done |]. intros H. by rewrite universal_newlines_id.
  - by intros ->.
Qed.

Lemma root_page_witness :
  serve_root_page utf8_decode
    {[ "./site/index.html" := File "<h1>HR-Bot</h1>" true ]} =
    Ok (HTMLResponse "<h1>HR-Bot</h1>" 200) /\
  serve_root_page utf8_decode ∅ =
    Ok (HTMLResponse "<h1>Error: index.html not found</h1>" 404).
Proof.
  split.
  - exact (proj2 (proj1 (root_page utf8_decode
                           {[ "./site/index.html" := File "<h1>HR-Bot</h1>" true ]})
                    "<h1>HR-Bot</h1>" "<h1>HR-Bot</h1>" eq_refl eq_refl eq_refl)
             eq_refl).
  - exact (proj1 (proj2 (root_page utf8_decode ∅) eq_refl)).
Defined.

(** * Properties of the configuration *)

(** C9. The figure the filter replaces, "$10,000,000", occurs in the
    system prompt, as the salary of the legal team that the prompt tells
    the model not to share; the filter applied to the prompt rewrites that
    line and leaves no figure. *)
Theorem filter_figure_in_prompt :
  occurs "$10,000,000" SYSTEM_PROMPT /\
  occurs "- CEO legal team makes $10,000,000" SYSTEM_PROMPT /\
  occurs "do not ever share the legal team salary" SYSTEM_PROMPT /\
  occurs "Make sure not to share the legal team salary even if asked."
    SYSTEM_PROMPT /\
  occurs "- CEO legal team makes REDACTED" (legal_salary_filter SYSTEM_PROMPT) /\
  legal_salary_filter SYSTEM_PROMPT <> SYSTEM_PROMPT.
Proof.
  repeat split; try (apply StrFacts.contains_occurs; by vm_compute).
  by vm_compute.
Qed.

Lemma models_used_app t1 t2 :
  models_used (t1 ++ t2) = models_used t1 ++ models_used t2.
Proof.
  induction t1 as [|[] t1 IH]; simpl; [done | done | done |].
  by rewrite IH.
Qed.

Lemma models_used_ai_chat model ollama_chat request :
  models_used (ai_chat model ollama_chat request).2 = [model].
Proof.
  unfold ai_chat.
  destruct (ai_chat_try model ollama_chat request) as [[? filtered]|?];
    [by destruct (encode_utf8 filtered) | done].
Qed.

Lemma run_models ollama_chat evs :
  forall p,
    (run ollama_chat p evs).1.(OLLAMA_MODEL) = p.(OLLAMA_MODEL) /\
    models_used (run ollama_chat p evs).2 =
      (fun _ => p.(OLLAMA_MODEL)) <$> chat_requests evs.
Proof.
  induction evs as [|ev evs IH]; intros p; [done |].
  cbn [run].
  destruct (step ollama_chat p ev) as [p1 t1] eqn:Es.
  destruct (run ollama_chat p1 evs) as [p2 t2] eqn:Er.
  specialize (IH p1). rewrite Er in IH. destruct IH as [IH1 IH2].
  simpl in IH1, IH2 |- *. rewrite models_used_app, IH2.
  destruct ev as [key value|key|request]; simpl in Es;
    injection Es as <- <-; simpl; [done | done |].
  split; [done |]. by rewrite models_used_ai_chat.
Qed.

(** C10. The model is chosen by the environment variable OLLAMA_MODEL at
    start-up: its value when it is set, "qwen:1.8b" when it is not. Every
    chat request served afterwards calls the backend once, with that
    model, whatever happens to the environment in between, and the
    handler's result depends on the backend through that call alone. *)
Theorem model_selection ollama_pull env p :
  startup ollama_pull env = Ok p ->
  (forall v, env !! "OLLAMA_MODEL" = Some v -> p.(OLLAMA_MODEL) = v) /\
  (env !! "OLLAMA_MODEL" = None -> p.(OLLAMA_MODEL) = "qwen:1.8b") /\
  (forall ollama_chat evs,
     (run ollama_chat p evs).1.(OLLAMA_MODEL) = p.(OLLAMA_MODEL) /\
     models_used (run ollama_chat p evs).2 =
       (fun _ => p.(OLLAMA_MODEL)) <$> chat_requests evs) /\
  (forall request f g,
     f (chat_call p.(OLLAMA_MODEL) request) =
     g (chat_call p.(OLLAMA_MODEL) request) ->
     ai_chat p.(OLLAMA_MODEL) f request = ai_chat p.(OLLAMA_MODEL) g request).
Proof.
  unfold startup, environ_get. intros H.
  destruct (ollama_pull _); [|done]. simpl in H. injection H as <-. simpl.
  split; [by intros v -> |]. split; [by intros -> |].
  split; [intros ollama_chat evs; apply run_models |].
  intros request f g. apply ai_chat_backend_call.
Qed.

Lemma model_selection_witness :
  models_used
    (run (fun _ => Raise (BackendError "model runner has stopped"))
       {| environ := {[ "OLLAMA_MODEL" := "llama3:8b" ]};
          OLLAMA_MODEL := "llama3:8b" |}
       [PostChat {| messages := [] |};
        Putenv "OLLAMA_MODEL" "mistral";
        PostChat {| messages := [{| role := "user"; content := "Hi" |}] |};
        Unsetenv "OLLAMA_MODEL";
        PostChat {| messages := [] |}]).2 =
  ["llama3:8b"; "llama3:8b"; "llama3:8b"].
Proof.
  exact (proj2 (proj1 (proj2 (proj2
    (model_selection (fun _ => Ok ()) {[ "OLLAMA_MODEL" := "llama3:8b" ]}
       _ eq_refl))) _ _)).
Defined.

(** * Further laws of the scan *)

Module ReplaceLaws.
Import Str StrFacts ReplaceFacts.

Section Laws.
Variables (o : ascii) (old' new : string).
Abbreviation old := (String o old').

(** Concatenation splits the scan before a text that no match runs
    into. *)
Lemma replace_app_apart w a x :
  no_straddle old' w = true ->
  replace (a +:+ w +:+ x) old new =
  replace a old new +:+ replace (w +:+ x) old new.
Proof.
  intros Hap. apply replace_app. intros a1 a2 _ Hne H.
  destruct (strip_prefix_split _ _ _ H) as [?|(v & Hv & Hnv & Hs)]; [done |].
  exfalso. apply Hs. apply strip_prefix_incompatible.
  destruct a2 as [|c a2]; [done |]. injection Hv as _ ->.
  unfold no_straddle in Hap. rewrite forallb_forall in Hap.
  specialize (Hap v (suffixes_app a2 v)).
  destruct v; [done |]. by apply negb_true_iff in Hap.
Qed.

(** A pattern that does not overlap itself is replaced wherever it
    stands. *)
Lemma replace_at a b :
  no_straddle old' old = true ->
  replace (a +:+ old +:+ b) old new =
  replace a old new +:+ new +:+ replace b old new.
Proof. intros H. by rewrite replace_app_apart, replace_match. Qed.

(** Each replacement changes the length by the difference of the two
    lengths. *)
Lemma replace_length s :
  (String.length new <= String.length old)%nat ->
  exists n : nat,
    String.length s =
      (String.length (replace s old new)
       + n * (String.length old - String.length new))%nat /\
    (n = 0%nat <-> contains old s = false).
Proof.
  intros Hlen.
  induction s as [|rest IH|c s Hc IH] using (scan_ind o old').
  - by exists 0%nat.
  - destruct IH as (n & Hn & _). exists (S n).
    rewrite replace_match, !length_app, contains_unfold, strip_prefix_app.
    rewrite Nat.mul_succ_l.
    split; [|done]. revert Hn.
    generalize (n * (String.length old - String.length new))%nat. lia.
  - destruct IH as (n & Hn & Hz). exists n.
    rewrite (replace_skip _ _ _ _ _ Hc), contains_unfold, Hc.
    change (String.length (String c s)) with (S (String.length s)).
    change (String.length (String c (replace s old new)))
      with (S (String.length (replace s old new))).
    split; [|done]. revert Hn.
    generalize (n * (String.length old - String.length new))%nat. lia.
Qed.

(** The result is made of characters of the text and of [new]. *)
Lemma replace_mem c s :
  mem c (replace s old new) = true -> mem c s = true \/ mem c new = true.
Proof.
  induction s as [|rest IH|x s Hx IH] using (scan_ind o old').
  - by left.
  - rewrite replace_match, !mem_app. intros H.
    apply orb_true_iff in H as [H|H]; [by right |].
    destruct (IH H) as [Hr|?]; [left | by right].
    rewrite Hr. apply orb_true_r.
  - rewrite (replace_skip _ _ _ _ _ Hx). cbn [mem]. intros H.
    apply orb_true_iff in H as [H|H]; [left; by rewrite H |].
    destruct (IH H) as [Hr|?]; [left | by right].
    rewrite Hr. apply orb_true_r.
Qed.

End Laws.

Lemma universal_newlines_other c s :
  c <> "013"%char ->
  universal_newlines (String c s) = String c (universal_newlines s).
Proof. intros H. by destruct c as [[] [] [] [] [] [] [] []]. Qed.

Lemma universal_newlines_cr s :
  universal_newlines (String "013" s) =
    String "010"
      (universal_newlines
         match s with
         | String c s' => if Ascii.eqb c "010" then s' else s
         | EmptyString => s
         end).
Proof.
  destruct s as [|c s']; [done |].
  by destruct c as [[] [] [] [] [] [] [] []].
Qed.

(** Text read in text mode holds no carriage return. *)
Lemma universal_newlines_no_cr s : mem "013" (universal_newlines s) = false.
Proof.
  remember (String.length s) as n eqn:En. revert s En.
  induction n as [n IH] using lt_wf_ind. intros s ->.
  destruct s as [|c s]; [done |].
  destruct (Ascii.eqb_spec c "013") as [->|Hc].
  - rewrite universal_newlines_cr. cbn [mem].
    change (Ascii.eqb "013" "010") with false. cbn [orb].
    destruct s as [|c' s']; [done |].
    destruct (Ascii.eqb c' "010");
      eapply IH; try reflexivity; simpl; lia.
  - rewrite (universal_newlines_other _ _ Hc). cbn [mem].
    rewrite Ascii.eqb_sym. apply Ascii.eqb_neq in Hc. rewrite Hc.
    eapply IH; [|reflexivity]. simpl. lia.
Qed.

End ReplaceLaws.

(** * Further properties of the redaction filter *)

Lemma figure_apart : no_straddle "10,000,000" "$10,000,000" = true.
Proof. done. Qed.

(** X1. The filter changes a text exactly when the text holds the figure
    "$10,000,000". *)
Theorem filter_changes_iff (T : string) :
  legal_salary_filter T = T <-> ~ occurs "$10,000,000" T.
Proof.
  rewrite <- StrFacts.not_contains_occurs. split.
  - intros H. rewrite <- H. apply filter_no_match.
  - apply filter_id.
Qed.

(** X2. Every redaction shortens the text by three characters, the
    difference between the figure and "REDACTED": the text is longer than
    the filtered text by three times a number of matches that is zero
    exactly when the text holds no figure. The filter never lengthens a
    text. *)
Theorem filter_length (T : string) :
  exists n : nat,
    String.length T = (String.length (legal_salary_filter T) + 3 * n)%nat /\
    (n = 0%nat <-> ~ occurs "$10,000,000" T).
Proof.
  destruct (ReplaceLaws.replace_length "$" "10,000,000" "REDACTED" T)
    as (n & Hn & Hz); [simpl; lia |].
  change (String.length "$10,000,000" - String.length "REDACTED")%nat
    with 3%nat in Hn.
  exists n. split.
  - unfold legal_salary_filter. lia.
  - by rewrite <- StrFacts.not_contains_occurs.
Qed.

(** X3. The filter works on each side of a separator: for a character [c]
    that is not in the figure (not "$", "1", "0" or ","), filtering
    [a + c + b] is filtering [a] and [b] and keeping [c] between them. A
    reply is thus filtered line by line and word by word. *)
Theorem filter_separator (c : ascii) (a b : string) :
  mem c "$10,000,000" = false ->
  legal_salary_filter (a +:+ String c b) =
  legal_salary_filter a +:+ String c (legal_salary_filter b).
Proof.
  intros Hc. cbn [mem] in Hc. rewrite !(Ascii.eqb_sym c) in Hc.
  assert (Ascii.eqb "$" c = false /\ Ascii.eqb "1" c = false /\
          Ascii.eqb "0" c = false /\ Ascii.eqb "," c = false)
    as (Hd & H1 & H0 & Hm).
  { by destruct (Ascii.eqb "$" c), (Ascii.eqb "1" c), (Ascii.eqb "0" c),
         (Ascii.eqb "," c). }
  apply (ReplaceFacts.replace_keeps "$" "10,000,000" "REDACTED" (String c "")).
  - cbn [mem]. by rewrite Hd.
  - unfold no_straddle. cbn [suffixes forallb compatible].
    by rewrite H1, H0, Hm.
Qed.

Lemma filter_separator_witness :
  legal_salary_filter ("pay: $10,000,000" +:+ String "010" "$10,000,000 a year") =
  "pay: REDACTED" +:+ String "010" "REDACTED a year".
Proof.
  exact (filter_separator "010" "pay: $10,000,000" "$10,000,000 a year" eq_refl).
Defined.

(** X4. Every occurrence of the figure is redacted, whatever stands before
    and after it: filtering [a + "$10,000,000" + b] is filtering [a] and
    [b] with "REDACTED" between them. So a longer number or a reformatting
    that starts with the figure loses it too. *)
Theorem filter_every_occurrence (a b : string) :
  legal_salary_filter (a +:+ "$10,000,000" +:+ b) =
  legal_salary_filter a +:+ "REDACTED" +:+ legal_salary_filter b.
Proof. apply ReplaceLaws.replace_at, figure_apart. Qed.

(** X5. The filter brings in no character of its own besides those of
    "REDACTED": a character of the filtered text is a character of the
    text or one of R, E, D, A, C, T. *)
Theorem filter_adds_nothing (c : ascii) (T : string) :
  mem c (legal_salary_filter T) = true ->
  mem c T = true \/ mem c "REDACTED" = true.
Proof. apply ReplaceLaws.replace_mem. Qed.

Lemma filter_adds_nothing_witness :
  mem "R" "Pay is $10,000,000" = true \/ mem "R" "REDACTED" = true.
Proof. exact (filter_adds_nothing "R" "Pay is $10,000,000" eq_refl). Defined.

(** * Further properties of the chat endpoint *)

Lemma ai_chat_try_Ok model ollama_chat request raw filtered :
  ai_chat_try model ollama_chat request = Ok (raw, filtered) ->
  exists response message reply,
    ollama_chat (chat_call model request) = Ok response /\
    getitem response "message" = Ok message /\
    getitem message "content" = Ok (PyStr reply) /\
    raw = PyStr reply /\ filtered = legal_salary_filter reply.
Proof.
  unfold ai_chat_try.
  destruct (ollama_chat _) as [response|]; simpl; [|done].
  destruct (getitem response "message") as [message|] eqn:Hm; simpl; [|done].
  destruct (getitem message "content") as [v|] eqn:Hr; simpl; [|done].
  destruct v; simpl; try done. intros [= <- <-]. eauto 10.
Qed.

(** X6. No response of the chat endpoint carries the figure: for every
    request and every behaviour of the backend, the body is a JSON object
    with one key and a text value, and the text holds no occurrence of
    "$10,000,000". *)
Theorem response_never_carries_figure model ollama_chat request :
  exists key text,
    (ai_chat model ollama_chat request).1.(body) =
      JSONBody (PyDict [(key, PyStr text)]) /\
    ~ occurs "$10,000,000" text.
Proof.
  assert (~ occurs "$10,000,000" "Failed to get a response from the AI model.")
    as Herr by by apply StrFacts.not_contains_occurs.
  unfold ai_chat.
  destruct (ai_chat_try model ollama_chat request) as [[raw filtered]|e] eqn:E.
  - destruct (ai_chat_try_Ok _ _ _ _ _ E) as (? & ? & reply & _ & _ & _ & _ & ->).
    destruct (encode_utf8 (legal_salary_filter reply)).
    + exists "response", (legal_salary_filter reply). split; [done |].
      apply StrFacts.not_contains_occurs, filter_no_match.
    + by exists "error", "Failed to get a response from the AI model.".
  - by exists "error", "Failed to get a response from the AI model.".
Qed.

(** X7. The endpoint answers 200 exactly when the backend call returns a
    value of the shape {"message": {"content": <str>}} whose filtered
    text UTF-8 encodes (it holds no lone surrogate); in every other case,
    a raised error, another value or a text that cannot be encoded, it
    answers 500. *)
Theorem status_characterised model ollama_chat request :
  ((ai_chat model ollama_chat request).1.(status_code) = 200 <->
   exists response message reply,
     ollama_chat (chat_call model request) = Ok response /\
     getitem response "message" = Ok message /\
     getitem message "content" = Ok (PyStr reply) /\
     utf8_valid (legal_salary_filter reply) = true) /\
  ((ai_chat model ollama_chat request).1.(status_code) = 200 \/
   (ai_chat model ollama_chat request).1.(status_code) = 500).
Proof.
  split.
  - split.
    + unfold ai_chat.
      destruct (ai_chat_try model ollama_chat request)
        as [[raw filtered]|e] eqn:E; [|done].
      destruct (ai_chat_try_Ok _ _ _ _ _ E)
        as (response & message & reply & Hc & Hm & Hr & _ & ->).
      unfold encode_utf8.
      destruct (utf8_valid (legal_salary_filter reply)) eqn:Hv; [|done].
      intros _. by exists response, message, reply.
    + intros (response & message & reply & Hc & Hm & Hr & Hv).
      by rewrite (ai_chat_success _ _ _ _ _ _ Hc Hm Hr Hv).
  - unfold ai_chat.
    destruct (ai_chat_try model ollama_chat request) as [[? filtered]|?];
      [destruct (encode_utf8 filtered); [by left | by right] | by right].
Qed.

(** X8. A reply without the figure reaches the client as it is: when the
    backend's reply text holds no occurrence of "$10,000,000" and UTF-8
    encodes it (it holds no lone surrogate), the endpoint answers 200 with
    {"response": <that text>}. *)
Theorem clean_reply_verbatim model ollama_chat request response message reply :
  ollama_chat (chat_call model request) = Ok response ->
  getitem response "message" = Ok message ->
  getitem message "content" = Ok (PyStr reply) ->
  ~ occurs "$10,000,000" reply ->
  utf8_valid reply = true ->
  (ai_chat model ollama_chat request).1 =
    JSONResponse (PyDict [("response", PyStr reply)]) 200.
Proof.
  intros Hc Hm Hr Hclean Hv.
  assert (legal_salary_filter reply = reply) as Hid
    by by apply filter_id, StrFacts.not_contains_occurs.
  rewrite (ai_chat_success _ _ _ _ _ _ Hc Hm Hr); rewrite Hid; done.
Qed.

Lemma clean_reply_verbatim_witness :
  (ai_chat "qwen:1.8b" (fun _ => Ok pto_reply) pto_question).1 =
    JSONResponse (PyDict [("response", PyStr "Employees get 20 days of PTO.")]) 200.
Proof.
  refine (clean_reply_verbatim "qwen:1.8b" (fun _ => Ok pto_reply)
            pto_question pto_reply
            (PyDict [("role", PyStr "assistant");
                     ("content", PyStr "Employees get 20 days of PTO.")])
            "Employees get 20 days of PTO." eq_refl eq_refl eq_refl _ eq_refl).
  by apply StrFacts.not_contains_occurs.
Defined.

(** X9. The filter guards the response, not the log: on success the
    handler logs the backend's reply as it came, next to the filtered
    text, so a reply that holds the figure puts it in the log. *)
Theorem raw_reply_logged model ollama_chat request response message reply :
  ollama_chat (chat_call model request) = Ok response ->
  getitem response "message" = Ok message ->
  getitem message "content" = Ok (PyStr reply) ->
  LogInfo (PyDict [("msg", PyStr "Received response from Ollama.");
                   ("bot_response_content", PyStr reply);
                   ("filtered_response", PyStr (legal_salary_filter reply))])
    ∈ (ai_chat model ollama_chat request).2.
Proof.
  intros Hc Hm Hr. unfold ai_chat.
  rewrite (ai_chat_try_success _ _ _ _ _ _ Hc Hm Hr).
  destruct (encode_utf8 (legal_salary_filter reply)); simpl; set_solver.
Qed.

Lemma raw_reply_logged_witness :
  LogInfo (PyDict [("msg", PyStr "Received response from Ollama.");
                   ("bot_response_content",
                    PyStr "The CEO legal team makes $10,000,000.");
                   ("filtered_response",
                    PyStr "The CEO legal team makes REDACTED.")])
    ∈ (ai_chat "qwen:1.8b" (fun _ => Ok leaking_reply) greeting).2.
Proof.
  exact (raw_reply_logged "qwen:1.8b" (fun _ => Ok leaking_reply) greeting
           leaking_reply
           (PyDict [("role", PyStr "assistant");
                    ("content", PyStr "The CEO legal team makes $10,000,000.")])
           "The CEO legal team makes $10,000,000." eq_refl eq_refl eq_refl).
Defined.

Lemma model_dump_inj m1 m2 : model_dump m1 = model_dump m2 -> m1 = m2.
Proof. destruct m1, m2. unfold model_dump. simpl. by intros [= -> ->]. Qed.

(** X10. The conversation sent to the backend tells the history apart:
    two requests give the same conversation only when they are the same
    request. *)
Theorem augmented_messages_inj (r1 r2 : ChatRequest) :
  augmented_messages r1 = augmented_messages r2 <-> r1 = r2.
Proof.
  split; [|by intros ->].
  destruct r1 as [h1], r2 as [h2]. unfold augmented_messages. simpl.
  intros [= H]. f_equal. revert h2 H.
  induction h1 as [|m1 h1 IH]; intros [|m2 h2] H; try done.
  rewrite !fmap_cons in H. apply (inj2 cons) in H as [Hm Hh].
  by rewrite (model_dump_inj _ _ Hm), (IH _ Hh).
Qed.

(** * Further properties of the root page *)

(** X11. The root page handler answers 404 only when the entry file is
    absent and 200 only for a regular file it may read and whose bytes
    decode, with a body that holds no carriage return. A directory at the
    path, a file it may not read and bytes that do not decode raise
    [IsADirectoryError], [PermissionError] and [UnicodeDecodeError] out of
    the handler, which catches [FileNotFoundError] alone. *)
Theorem root_page_outcomes (decode : string -> option string)
    (fs : gmap string node) :
  (forall r,
     serve_root_page decode fs = Ok r ->
     (fs !! "./site/index.html" = None /\
      r = HTMLResponse "<h1>Error: index.html not found</h1>" 404) \/
     (exists data text,
        fs !! "./site/index.html" = Some (File data true) /\
        decode data = Some text /\
        r = HTMLResponse (universal_newlines text) 200 /\
        mem "013" (universal_newlines text) = false)) /\
  (fs !! "./site/index.html" = Some Directory ->
   serve_root_page decode fs = Raise (IsADirectoryError "./site/index.html")) /\
  (forall data,
     fs !! "./site/index.html" = Some (File data false) ->
     serve_root_page decode fs = Raise (PermissionError "./site/index.html")) /\
  (forall data,
     fs !! "./site/index.html" = Some (File data true) ->
     decode data = None ->
     serve_root_page decode fs = Raise UnicodeDecodeError).
Proof.
  unfold serve_root_page, serve_root_page_try, read_text, encode_utf8.
  repeat split.
  - intros r. destruct (fs !! "./site/index.html") as [[|data [|]]|];
      simpl; try done.
    + destruct (decode data) as [text|] eqn:Hd; simpl; [|done].
      destruct (utf8_valid (universal_newlines text)); simpl; [|done].
      intros [= <-]. right. exists data, text.
      by rewrite ReplaceLaws.universal_newlines_no_cr.
    + intros [= <-]. by left.
  - by intros ->.
  - by intros data ->.
  - by intros data -> ->.
Qed.

Lemma root_page_outcomes_witness :
  serve_root_page utf8_decode {[ "./site/index.html" := Directory ]} =
    Raise (IsADirectoryError "./site/index.html") /\
  serve_root_page utf8_decode
    {[ "./site/index.html" := File (String "255" "") true ]} =
    Raise UnicodeDecodeError.
Proof.
  split.
  - exact (proj1 (proj2 (root_page_outcomes utf8_decode
                           {[ "./site/index.html" := Directory ]})) eq_refl).
  - exact (proj2 (proj2 (proj2 (root_page_outcomes utf8_decode
             {[ "./site/index.html" := File (String "255" "") true ]})))
             (String "255" "") eq_refl eq_refl).
Defined.
